(** * Weaviate hybrid-search retriever

    A shallow embedding of
    [libs/community/langchain_community/retrievers/weaviate_hybrid_search.py]
    together with the properties its specification states about it.

    The retriever talks to two collaborators, the Weaviate client and the
    embedding provider.  Both are modelled by their observable behaviour: a
    record of operations over an abstract backend state.  Every call the
    retriever issues is appended to a log, and the Python dictionaries that
    the backing store hands back live in a heap of mutable objects, so that
    sharing and in-place updates are visible.  What the interpreter and
    pydantic do around the retriever's code is not in the sources and comes
    in as a parameter, [Runtime]. *)

From Stdlib Require Import ZArith.
From stdpp Require Import base option strings list functions gmap pretty.

Open Scope Z_scope.
Open Scope string_scope.
Open Scope list_scope.

(** ** Python values *)

(** Addresses of dictionary objects. *)
Definition loc := nat.

(** The values that flow through the retriever.  A float is kept as its
    IEEE-754 binary64 bit pattern: the retriever only passes floats on. *)
#[warnings="-register-all"]
Inductive value :=
| VNone
| VBool (b : bool)
| VInt (z : Z)
| VFloat (bits : Z)
| VStr (s : string)
| VList (items : list value)
| VObject (cls : string).

(** [type(v)] as an f-string prints it. *)
Definition type_repr (v : value) : string :=
  let cls := match v with
             | VNone => "NoneType"
             | VBool _ => "bool"
             | VInt _ => "int"
             | VFloat _ => "float"
             | VStr _ => "str"
             | VList _ => "list"
             | VObject cls => cls
             end in
  "<class '" +:+ cls +:+ "'>".

(** Exceptions.  [Raised] stands for whatever a collaborator throws, and
    [ValidationError] for pydantic's exception, which carries the errors it
    wraps. *)
#[warnings="-register-all"]
Inductive exn :=
| ImportError (msg : string)
| ValueError (msg : string)
| KeyError (key : string)
| TypeError (msg : string)
| ValidationError (errors : list exn)
| Raised (cls msg : string).

(** A mutable Python [dict] with string keys, and the heap holding them. *)
Abbreviation dict := (gmap string value).
Abbreviation heap := (loc → gmap string value).

(** A raw result record: [o.properties] is a reference to a dictionary. *)
Record obj := { properties : loc }.

(** The schema dictionary built by [validate_client]:
    [{"class": ..., "properties": [{"name": ..., "dataType": [...]}]}]. *)
Record property_schema := { name : value; dataType : list string }.
Record class_schema := { class : value; schema_properties : list property_schema }.

(** Modelled from the spec: [langchain_core.documents.Document] is not part of
    the sources at hand.  The spec describes it as a text content together
    with a metadata mapping; the mapping is held by reference, as the
    constructor receives the dictionary object itself. *)
Record Document := { page_content : string; metadata : loc }.

(** What the interpreter and pydantic contribute around the retriever's own
    code.  None of it is in the sources at hand, so it is taken as given:
    - [str_validation v]: the outcome of validating a [page_content] that is
      not a string, either the text it is turned into or the error raised;
    - [validator_error e]: the exception that leaves the constructor when a
      root validator raises [e];
    - [repeated_keyword_message named extra]: the message of the [TypeError]
      of a call [f(a=.., **extra)] in which [extra] repeats a named
      argument; it names the callee and the first repeated key in the
      iteration order of [extra]. *)
Record Runtime := {
  str_validation : value → exn + string;
  validator_error : exn → exn;
  repeated_keyword_message : list (string * value) → gmap string value → string
}.

(** Modelled from the spec: the text content of a document is a text.  A
    string is taken as it stands; any other value goes through the
    validation of the field, which is the runtime's. *)
Definition validate_page_content (py : Runtime) (text : value) : exn + string :=
  match text with
  | VStr s => inr s
  | _ => str_validation py text
  end.

(** Modelled from the spec: [Document(page_content=text, metadata=m)] holds
    the validated text and the dictionary [m] itself, or raises the error of
    the validation. *)
Definition new_Document (py : Runtime) (text : value) (m : loc) : exn + Document :=
  match validate_page_content py text with
  | inl e => inl e
  | inr s => inr {| page_content := s; metadata := m |}
  end.

Module WeaviateHybridSearchRetriever.

Section collaborators.
(** The state of everything outside the retriever, and the type of the
    collection handles the client gives out. *)
Context {B Collection : Type}.

(** The operations of [weaviate.WeaviateClient] the retriever uses.
    [query_hybrid] answers with [result.objects]; it may allocate or reuse
    dictionaries in the heap. *)
Record Client := {
  collections_exists : value → B → (exn + bool) * B;
  collections_create_from_dict : class_schema → B → (exn + unit) * B;
  collections_get : string → B → (exn + Collection) * B;
  query_hybrid : Collection → dict → B → heap → (exn + list obj) * B * heap
}.

(** [langchain_core.embeddings.Embeddings]. *)
Record Embeddings := {
  embed_query : string → B → (exn + value) * B
}.

(** The calls issued to the collaborators, with their arguments. *)
Inductive call :=
| CollectionsExists (index : value)
| CollectionsCreateFromDict (schema : class_schema)
| CollectionsGet (index : string)
| EmbedQuery (text : string)
| QueryHybrid (c : Collection) (kwargs : dict).

(** The operations on the backing store: the existence test, the creation
    of a collection and the hybrid query.  [collections.get] only hands out
    the handle on which the query is later issued, and [embed_query] goes to
    the embedding provider. *)
Definition is_store_call (c : call) : bool :=
  match c with
  | CollectionsExists _ | CollectionsCreateFromDict _ | QueryHybrid _ _ => true
  | CollectionsGet _ | EmbedQuery _ => false
  end.

Definition is_hybrid_call (c : call) : bool :=
  match c with QueryHybrid _ _ => true | _ => false end.

Definition is_create_call (c : call) : bool :=
  match c with CollectionsCreateFromDict _ => true | _ => false end.

Record world := World {
  backend : B;
  objects : heap;
  calls : list call
}.

(** ** Computations that may raise and that change the world *)

Definition M (A : Type) : Type := world → (exn + A) * world.

#[export] Instance M_ret : MRet M := λ A a w, (inr a, w).
#[export] Instance M_bind : MBind M := λ A C f m w,
  match m w with
  | (inl e, w') => (inl e, w')
  | (inr a, w') => f a w'
  end.

Definition raise {A} (e : exn) : M A := λ w, (inl e, w).

(** A computation that does not touch the world. *)
Definition lift {A} (r : exn + A) : M A := λ w, (r, w).

(** The calls a computation adds to the log. *)
Definition issued {A} (m : M A) (w : world) : list call :=
  drop (length (calls w)) (calls (m w).2).

(** [d[key]] on a dictionary value. *)
Definition getitem (d : dict) (key : string) : M value :=
  match d !! key with
  | Some v => mret v
  | None => raise (KeyError key)
  end.

(** [d.pop(key)] on the dictionary stored at [l]: without a default a
    missing key raises [KeyError]; otherwise the entry is removed from the
    stored dictionary itself. *)
Definition dict_pop (l : loc) (key : string) : M value := λ w,
  match objects w l !! key with
  | Some v =>
      (inr v, World (backend w) (<[l := delete key (objects w l)]> (objects w)) (calls w))
  | None => (inl (KeyError key), w)
  end.

(** The collaborators' operations as logged calls. *)
Definition call_exists (c : Client) (index : value) : M bool := λ w,
  let '(r, b) := collections_exists c index (backend w) in
  (r, World b (objects w) (calls w ++ [CollectionsExists index])).

Definition call_create_from_dict (c : Client) (schema : class_schema) : M unit := λ w,
  let '(r, b) := collections_create_from_dict c schema (backend w) in
  (r, World b (objects w) (calls w ++ [CollectionsCreateFromDict schema])).

Definition call_get (c : Client) (index : string) : M Collection := λ w,
  let '(r, b) := collections_get c index (backend w) in
  (r, World b (objects w) (calls w ++ [CollectionsGet index])).

Definition call_embed_query (e : Embeddings) (text : string) : M value := λ w,
  let '(r, b) := embed_query e text (backend w) in
  (r, World b (objects w) (calls w ++ [EmbedQuery text])).

Definition call_hybrid (c : Client) (col : Collection) (kwargs : dict) : M (list obj) := λ w,
  let '(r, b, h) := query_hybrid c col kwargs (backend w) (objects w) in
  (r, World b h (calls w ++ [QueryHybrid col kwargs])).

(** ** The retriever *)

Record Retriever := {
  client : Client;
  index_name : string;
  text_key : string;
  alpha : Z;
  k : Z;
  embedding : Embeddings
}.

(** The outcome of [import weaviate]: [None] when the package is missing,
    otherwise the test [isinstance(v, weaviate.WeaviateClient)], which
    gives the client behind [v] when it holds. *)
Definition weaviate_module : Type := option (value → option Client).

(** Lines 51 to 59: the schema of a collection with one text property. *)
Definition schema (index key : value) : class_schema :=
  {| class := index;
     schema_properties := [ {| name := key; dataType := ["text"] |} ] |}.

Definition validate_client (weaviate : weaviate_module) (values : dict) : M dict :=
  match weaviate with
  | None =>
      raise (ImportError
        ("Could not import weaviate python package. " +:+
         "Please install it with `pip install weaviate-client`."))
  | Some isinstance =>
      c ← getitem values "client";
      match isinstance c with
      | None =>
          raise (ValueError
            ("client should be an instance of weaviate.Client, got " +:+ type_repr c))
      | Some cl =>
          index ← getitem values "index_name";
          key ← getitem values "text_key";
          let schema := schema index key in
          present ← call_exists cl index;
          (if negb present then call_create_from_dict cl schema else mret tt);;
          mret values
      end
  end.

(** Construction runs the validator first (it is a [pre] root validator).
    The rest is pydantic's and not part of this file: [validator_error py]
    is what it raises when the validator raises, and [populate] stands for
    its field validation, which turns the validated values into the
    instance. *)
Definition construct (py : Runtime) (weaviate : weaviate_module)
    (populate : dict → exn + Retriever) (values : dict) : M Retriever := λ w,
  match validate_client weaviate values w with
  | (inl e, w') => (inl (validator_error py e), w')
  | (inr values, w') => (populate values, w')
  end.

(** Keyword arguments of a call [f(a=.., b=.., **extra)]: a key of [extra]
    that repeats a named argument makes the call itself raise [TypeError]
    before [f] is entered, with the interpreter's message. *)
Definition keyword_arguments (py : Runtime) (named : list (string * value))
    (extra : dict) : exn + dict :=
  if forallb (λ kv, match extra !! kv.1 with Some _ => false | None => true end) named
  then inr (list_to_map named ∪ extra)
  else inl (TypeError (repeated_keyword_message py named extra)).

(** The named arguments of the call to [query.hybrid]. *)
Definition hybrid_arguments (self : Retriever) (query : string)
    (query_vector : value) : list (string * value) :=
  [ ("query", VStr query);
    ("limit", VInt (k self));
    ("alpha", VFloat (alpha self));
    ("vector", query_vector) ].

(** Lines 87 to 99 of the source: the request. *)
Definition hybrid_request (py : Runtime) (self : Retriever) (query : string)
    (hybrid_search_kwargs : option dict) : M (list obj) :=
  query_obj ← call_get (client self) (index_name self);
  query_vector ← call_embed_query (embedding self) query;
  let hybrid_search_kwargs :=
    match hybrid_search_kwargs with
    | None => ∅
    | Some kwargs => kwargs
    end in
  kwargs ← lift (keyword_arguments py (hybrid_arguments self query query_vector)
                   hybrid_search_kwargs);
  call_hybrid (client self) query_obj kwargs.

(** Lines 101 to 106: the loop over [result.objects], with [docs] the list
    built so far. *)
Fixpoint to_documents (py : Runtime) (text_key : string) (objs : list obj)
    (docs : list Document) : M (list Document) :=
  match objs with
  | [] => mret docs
  | o :: rest =>
      text ← dict_pop (properties o) text_key;
      doc ← lift (new_Document py text (properties o));
      to_documents py text_key rest (docs ++ [doc])
  end.

Definition _get_relevant_documents (py : Runtime) (self : Retriever)
    (query : string) (hybrid_search_kwargs : option dict) : M (list Document) :=
  objs ← hybrid_request py self query hybrid_search_kwargs;
  to_documents py (text_key self) objs [].

End collaborators.

(** ** A scripted client and embedding provider

    A small stand-in for the collaborators, used to run the retriever on
    concrete inputs.  Its backend state is the list of the names of the
    collections that exist; a collection handle is the collection's name. *)
Module Mock.
Local Open Scope nat_scope.

Definition collections_exists (index : value) (b : list string)
    : (exn + bool) * list string :=
  match index with
  | VStr s => (inr (bool_decide (s ∈ b)), b)
  | _ => (inl (Raised "TypeError" "collection name must be a string"), b)
  end.

Definition collections_create_from_dict (schema : class_schema) (b : list string)
    : (exn + unit) * list string :=
  match class schema with
  | VStr s => (inr tt, s :: b)
  | _ => (inl (Raised "TypeError" "collection name must be a string"), b)
  end.

(** The client answers every hybrid query with [response], whose records
    refer to dictionaries that are already in the heap. *)
Definition client (response : exn + list obj) : @Client (list string) string :=
  {| WeaviateHybridSearchRetriever.collections_exists := collections_exists;
     WeaviateHybridSearchRetriever.collections_create_from_dict :=
       collections_create_from_dict;
     collections_get := λ index b, (inr index, b);
     query_hybrid := λ _ _ b h, (response, b, h) |}.

Definition embeddings (answer : exn + value) : @Embeddings (list string) :=
  {| embed_query := λ _ b, (answer, b) |}.

Definition retriever (response : exn + list obj) (answer : exn + value)
    : @Retriever (list string) string :=
  {| WeaviateHybridSearchRetriever.client := client response;
     index_name := "Article";
     text_key := "text";
     alpha := 4602678819172646912%Z;
     k := 4%Z;
     embedding := embeddings answer |}.

(** [isinstance(v, weaviate.WeaviateClient)] for the objects of the
    examples. *)
Definition isinstance (response : exn + list obj) (v : value)
    : option (@Client (list string) string) :=
  match v with
  | VObject "weaviate.client.WeaviateClient" => Some (client response)
  | _ => None
  end.

Definition values : dict :=
  {[ "client" := VObject "weaviate.client.WeaviateClient";
     "index_name" := VStr "Article";
     "text_key" := VStr "text" ]}.

(** Two dictionaries, at addresses 0 and 1; the one at address 2 has no
    text. *)
Definition store : heap := λ l,
  match l with
  | 0 => {[ "text" := VStr "first"; "page" := VInt 1 ]}
  | 1 => {[ "text" := VStr "second"; "source" := VStr "wiki" ]}
  | 2 => {[ "page" := VInt 3%Z ]}
  | _ => ∅
  end.

Definition start (existing : list string) : @world (list string) string :=
  World existing store [].

Definition vector : value := VList [VFloat 0%Z; VFloat 4607182418800017408%Z].

(** Answers of the backing store: two records with their own dictionaries,
    one record handed out twice, and a record without text. *)
Definition two_records : list obj := [ {| properties := 0 |}; {| properties := 1 |} ].
Definition shared_records : list obj := [ {| properties := 0 |}; {| properties := 0 |} ].
Definition textless_records : list obj := [ {| properties := 0 |}; {| properties := 2 |} ].

Definition unreachable : exn := Raised "ConnectionError" "embedding provider unreachable".
Definition query_failed : exn := Raised "WeaviateQueryError" "query call failed".

(** Extra options of a search. *)
Definition options : dict := {[ "fusion_type" := VStr "RELATIVE_SCORE" ]}.

(** The keyword arguments of the hybrid query of [retriever] for the query
    ["q"], without and with [options]. *)
Definition plain_kwargs : dict :=
  list_to_map (hybrid_arguments (retriever (inr two_records) (inr vector)) "q" vector).
Definition merged_kwargs : dict := plain_kwargs ∪ options.

(** Field validation for the examples: the two names have to be strings. *)
Definition populate (values : dict) : exn + @Retriever (list string) string :=
  match values !! "index_name", values !! "text_key" with
  | Some (VStr index), Some (VStr key) =>
      inr {| WeaviateHybridSearchRetriever.client := client (inr two_records);
             index_name := index;
             text_key := key;
             alpha := 4602678819172646912%Z;
             k := 4%Z;
             embedding := embeddings (inr vector) |}
  | _, _ => inl (ValidationError [TypeError "str type expected"])
  end.

(** The interpreter and pydantic of the examples.  A number given as text is
    written out and any other value is refused; an error of value or of
    type raised by a validator is wrapped, any other exception passes. *)
Definition py : Runtime :=
  {| str_validation := λ v,
       match v with
       | VInt z => inr (pretty z)
       | _ => inl (ValidationError [TypeError "str type expected"])
       end;
     validator_error := λ e,
       match e with
       | ValueError _ | TypeError _ => ValidationError [e]
       | _ => e
       end;
     repeated_keyword_message := λ named extra,
       match filter (λ kv, is_Some (extra !! kv.1)) named with
       | (key, _) :: _ =>
           "hybrid() got multiple values for keyword argument '" +:+ key +:+ "'"
       | [] => ""
       end |}.

End Mock.

(** ** A client that has lost its connection

    Every operation that reaches the store raises; the hybrid query is never
    reached in the examples that use this client. *)
Module Faulty.

Definition lost : exn := Raised "WeaviateConnectionError" "connection lost".

Definition client : @Client (list string) string :=
  {| collections_exists := λ _ b, (inl lost, b);
     collections_create_from_dict := λ _ b, (inl lost, b);
     collections_get := λ _ b, (inl lost, b);
     query_hybrid := λ _ _ b h, (inl lost, b, h) |}.

Definition retriever : @Retriever (list string) string :=
  {| WeaviateHybridSearchRetriever.client := client;
     index_name := "Article";
     text_key := "text";
     alpha := 4602678819172646912;
     k := 4;
     embedding := Mock.embeddings (inr Mock.vector) |}.

Definition isinstance (v : value) : option (@Client (list string) string) :=
  match v with
  | VObject "weaviate.client.WeaviateClient" => Some client
  | _ => None
  end.

(** Extra options that repeat a named argument of the query. *)
Definition repeated : dict := {[ "alpha" := VFloat 0 ]}.

End Faulty.

Section properties.
Context {B Collection : Type} (py : Runtime).
Implicit Types (w : @world B Collection) (self : @Retriever B Collection).
Implicit Types (objs : list obj) (docs : list Document).

(** *** The log *)

Lemma issued_app {A} (m : M A) w (l : list call) :
  calls (m w).2 = calls w ++ l → issued m w = l.
Proof. intros E. unfold issued. rewrite E. apply drop_app_length. Qed.

(** *** Keyword arguments *)

Lemma keyword_arguments_inr named extra kwargs :
  keyword_arguments py named extra = inr kwargs →
  kwargs = list_to_map named ∪ extra ∧
  ∀ key v, (key, v) ∈ named → extra !! key = None.
Proof.
  unfold keyword_arguments.
  destruct (forallb _ named) eqn:E; [|discriminate].
  intros [= <-]. split; [done|].
  intros key v Hin%list_elem_of_In.
  rewrite forallb_forall in E. specialize (E _ Hin).
  simpl in E. by destruct (extra !! key).
Qed.

Lemma keyword_arguments_disjoint named extra :
  (∀ key v, (key, v) ∈ named → extra !! key = None) →
  keyword_arguments py named extra = inr (list_to_map named ∪ extra).
Proof.
  intros H. unfold keyword_arguments.
  replace (forallb _ named) with true; [done|].
  symmetry. apply forallb_forall.
  intros [key v] Hin%list_elem_of_In. simpl. by rewrite (H key v Hin).
Qed.

Lemma keyword_arguments_inl named extra e :
  keyword_arguments py named extra = inl e →
  e = TypeError (repeated_keyword_message py named extra) ∧
  ∃ key v, (key, v) ∈ named ∧ is_Some (extra !! key).
Proof.
  unfold keyword_arguments.
  destruct (forallb _ named) eqn:E; [discriminate|].
  intros [= <-]. split; [done|].
  induction named as [|[key v] named IH]; [discriminate|].
  simpl in E. destruct (extra !! key) eqn:Ek.
  - exists key, v. split; [left|by rewrite Ek].
  - destruct (IH E) as (key' & v' & Hin & Hs).
    exists key', v'. split; [by right|done].
Qed.

(** An entry of [extra] survives the merge, and so does every named
    argument. *)
Lemma keyword_arguments_extra named extra kwargs key v :
  keyword_arguments py named extra = inr kwargs →
  extra !! key = Some v → kwargs !! key = Some v.
Proof.
  intros [-> Hd]%keyword_arguments_inr Hk.
  apply lookup_union_Some_raw. right. split; [|done].
  apply not_elem_of_list_to_map_1.
  intros ([key' v'] & E & Hin)%list_elem_of_fmap. simpl in E. subst key'.
  rewrite (Hd _ _ Hin) in Hk. discriminate.
Qed.

Lemma hybrid_arguments_lookup self query vector :
  let named : dict := list_to_map (hybrid_arguments self query vector) in
  named !! "query" = Some (VStr query) ∧
  named !! "limit" = Some (VInt (k self)) ∧
  named !! "alpha" = Some (VFloat (alpha self)) ∧
  named !! "vector" = Some vector.
Proof. repeat split. Qed.

(** *** The request *)

(** The four ways the request can go. *)
Lemma hybrid_request_unfold self query kw w :
  hybrid_request py self query kw w =
  match collections_get (client self) (index_name self) (backend w) with
  | (inl e, b1) =>
      (inl e, World b1 (objects w) (calls w ++ [CollectionsGet (index_name self)]))
  | (inr c, b1) =>
      let log := [CollectionsGet (index_name self); EmbedQuery query] in
      match embed_query (embedding self) query b1 with
      | (inl e, b2) => (inl e, World b2 (objects w) (calls w ++ log))
      | (inr vector, b2) =>
          match keyword_arguments py (hybrid_arguments self query vector) (default ∅ kw) with
          | inl e => (inl e, World b2 (objects w) (calls w ++ log))
          | inr kwargs =>
              let '(r, b3, h) := query_hybrid (client self) c kwargs b2 (objects w) in
              (r, World b3 h (calls w ++ log ++ [QueryHybrid c kwargs]))
          end
      end
  end.
Proof.
  unfold hybrid_request, mbind, M_bind, call_get, call_embed_query, call_hybrid, lift.
  destruct (collections_get _ _ _) as [[e|c] b1]; [done|]. simpl.
  destruct (embed_query _ _ _) as [[e|vector] b2]; simpl;
    [by rewrite <- app_assoc|].
  replace (match kw with Some kwargs => kwargs | None => ∅ end) with (default ∅ kw)
    by by destruct kw.
  destruct (keyword_arguments _ _) as [e|kwargs]; simpl;
    [by rewrite <- app_assoc|].
  destruct (query_hybrid _ _ _ _ _) as [[r b3] h].
  by rewrite <- !app_assoc.
Qed.

(** The log only grows, and the request adds at most the three calls. *)
Lemma hybrid_request_calls self query kw w :
  ∃ l, calls (hybrid_request py self query kw w).2 = calls w ++ l ∧
    (l = [CollectionsGet (index_name self)] ∨
     l = [CollectionsGet (index_name self); EmbedQuery query] ∨
     ∃ c b1 vector b2 kwargs,
       collections_get (client self) (index_name self) (backend w) = (inr c, b1) ∧
       embed_query (embedding self) query b1 = (inr vector, b2) ∧
       keyword_arguments py (hybrid_arguments self query vector) (default ∅ kw)
         = inr kwargs ∧
       l = [CollectionsGet (index_name self); EmbedQuery query; QueryHybrid c kwargs]).
Proof.
  rewrite hybrid_request_unfold.
  destruct (collections_get _ _ _) as [[e|c] b1] eqn:Eg; [eauto|].
  destruct (embed_query _ _ _) as [[e|vector] b2] eqn:Ee; [simpl; eauto|].
  destruct (keyword_arguments _ _) as [e|kwargs] eqn:Ek; [simpl; eauto|].
  destruct (query_hybrid _ _ _ _ _) as [[r b3] h]. simpl.
  eexists. split; [done|]. right. right. by exists c, b1, vector, b2, kwargs.
Qed.

(** *** The loop *)

(** One turn of the loop: the pop, the document, the rest. *)
Lemma to_documents_cons key o objs docs w :
  to_documents py key (o :: objs) docs w =
  match objects w (properties o) !! key with
  | None => (inl (KeyError key), w)
  | Some text =>
      let w1 := World (backend w)
        (<[properties o := delete key (objects w (properties o))]> (objects w))
        (calls w) in
      match validate_page_content py text with
      | inl e => (inl e, w1)
      | inr s =>
          to_documents py key objs
            (docs ++ [ {| page_content := s; metadata := properties o |} ]) w1
      end
  end.
Proof.
  simpl. unfold mbind, M_bind, dict_pop, lift, new_Document.
  destruct (objects w (properties o) !! key) as [text|]; [|done].
  by destruct (validate_page_content py text).
Qed.

(** The loop leaves the backend and the log alone. *)
Lemma to_documents_frame key objs docs w :
  backend (to_documents py key objs docs w).2 = backend w ∧
  calls (to_documents py key objs docs w).2 = calls w.
Proof.
  revert docs w. induction objs as [|o objs IH]; intros docs w; [done|].
  rewrite to_documents_cons.
  destruct (objects w (properties o) !! key) as [text|]; [|done]. cbv zeta.
  destruct (validate_page_content py text) as [e|s]; [done|].
  by destruct (IH (docs ++ [ {| page_content := s; metadata := properties o |} ])
    (World (backend w) (<[properties o:=delete key (objects w (properties o))]> (objects w))
       (calls w))) as [-> ->].
Qed.

(** Dictionaries only lose entries in the loop. *)
Lemma to_documents_shrinks key objs docs w l :
  objects (to_documents py key objs docs w).2 l ⊆ objects w l.
Proof.
  revert docs w. induction objs as [|o objs IH]; intros docs w; [done|].
  rewrite to_documents_cons.
  destruct (objects w (properties o) !! key) as [text|]; [|done]. cbv zeta.
  assert (<[properties o:=delete key (objects w (properties o))]> (objects w) l
            ⊆ objects w l) as Hsub.
  { destruct (decide (properties o = l)) as [<-|Hne].
    - rewrite fn_lookup_insert. apply delete_subseteq.
    - by rewrite fn_lookup_insert_ne. }
  destruct (validate_page_content py text) as [e|s]; [done|].
  etrans; [apply IH|done].
Qed.

Lemma to_documents_absent key objs docs w l :
  objects w l !! key = None →
  objects (to_documents py key objs docs w).2 l !! key = None.
Proof.
  intros H. eapply lookup_weaken_None; [done|]. apply to_documents_shrinks.
Qed.

(** A dictionary that belongs to none of the records is not touched. *)
Lemma to_documents_other key objs docs w l :
  l ∉ properties <$> objs →
  objects (to_documents py key objs docs w).2 l = objects w l.
Proof.
  revert docs w. induction objs as [|o objs IH]; intros docs w Hl; [done|].
  apply not_elem_of_cons in Hl as [Hne Hl].
  rewrite to_documents_cons.
  destruct (objects w (properties o) !! key) as [text|]; [|done]. cbv zeta.
  destruct (validate_page_content py text) as [e|s].
  - simpl. by rewrite fn_lookup_insert_ne.
  - rewrite IH by done. simpl. by rewrite fn_lookup_insert_ne.
Qed.

(** Records with pairwise distinct dictionaries that all hold a text which
    passes as the content of a document: one document per record, in
    order. *)
Lemma to_documents_distinct key objs docs w :
  NoDup (properties <$> objs) →
  (∀ o, o ∈ objs →
     ∃ text s, objects w (properties o) !! key = Some text ∧
               validate_page_content py text = inr s) →
  ∃ found w',
    to_documents py key objs docs w = (inr (docs ++ found), w') ∧
    length found = length objs ∧
    ∀ i o, objs !! i = Some o →
      ∃ text s,
        objects w (properties o) !! key = Some text ∧
        validate_page_content py text = inr s ∧
        found !! i = Some {| page_content := s; metadata := properties o |} ∧
        objects w' (properties o) = delete key (objects w (properties o)).
Proof.
  revert docs w. induction objs as [|o objs IH]; intros docs w Hnd Hall.
  { exists [], w. rewrite app_nil_r. split; [done|]. split; [done|]. by intros i o. }
  rewrite fmap_cons in Hnd. apply NoDup_cons in Hnd as [Hfresh Hnd].
  destruct (Hall o) as (text & s & Htext & Hs); [left|].
  set (w1 := World (backend w)
    (<[properties o:=delete key (objects w (properties o))]> (objects w)) (calls w)).
  assert (Hsame : ∀ o', o' ∈ objs →
    objects w1 (properties o') = objects w (properties o')).
  { intros o' Hin. simpl. rewrite fn_lookup_insert_ne; [done|].
    intros E. apply Hfresh. rewrite E. by apply list_elem_of_fmap_2. }
  destruct (IH (docs ++ [ {| page_content := s; metadata := properties o |} ]) w1 Hnd)
    as (found & w' & Hrun & Hlen & Hdocs).
  { intros o' Hin. rewrite Hsame by done. apply Hall. by right. }
  exists ({| page_content := s; metadata := properties o |} :: found), w'.
  split; [|split].
  - rewrite to_documents_cons, Htext. cbv zeta. rewrite Hs. fold w1.
    rewrite Hrun. by rewrite <- app_assoc.
  - simpl. by rewrite Hlen.
  - intros [|i] o' Hi; simpl in Hi.
    + injection Hi as <-. exists text, s. split; [done|]. split; [done|].
      split; [done|].
      replace w' with (to_documents py key objs
        (docs ++ [ {| page_content := s; metadata := properties o |} ]) w1).2
        by by rewrite Hrun.
      rewrite to_documents_other by done. simpl. by rewrite fn_lookup_insert.
    + destruct (Hdocs i o' Hi) as (text' & s' & Ht & Hs' & Hf & Hm).
      assert (o' ∈ objs) as Hin by by eapply list_elem_of_lookup_2.
      rewrite Hsame in Ht, Hm by done. by exists text', s'.
Qed.

(** Whatever the records are, a loop that comes to its end has popped the
    text out of every record's dictionary, and each document holds that
    very dictionary. *)
Lemma to_documents_inr key objs docs w found w' :
  to_documents py key objs docs w = (inr found, w') →
  (∃ new, found = docs ++ new ∧ metadata <$> new = properties <$> objs) ∧
  ∀ o, o ∈ objs →
    is_Some (objects w (properties o) !! key) ∧
    objects w' (properties o) !! key = None.
Proof.
  revert docs w. induction objs as [|o objs IH]; intros docs w Hrun.
  { injection Hrun as <- <-. split; [exists []; by rewrite app_nil_r|].
    by intros o Hin%elem_of_nil. }
  rewrite to_documents_cons in Hrun.
  destruct (objects w (properties o) !! key) as [text|] eqn:Htext; [|discriminate].
  cbv zeta in Hrun.
  destruct (validate_page_content py text) as [e|s]; [discriminate|].
  set (w1 := World (backend w)
    (<[properties o:=delete key (objects w (properties o))]> (objects w)) (calls w))
    in Hrun.
  destruct (IH _ _ Hrun) as [(new & -> & Hmeta) Hpop]. split.
  - exists ({| page_content := s; metadata := properties o |} :: new).
    split; [by rewrite <- app_assoc|]. rewrite !fmap_cons. by rewrite Hmeta.
  - intros o' [->|Hin]%elem_of_cons.
    + split; [by rewrite Htext|].
      replace w' with (to_documents py key objs
        (docs ++ [ {| page_content := s; metadata := properties o |} ]) w1).2
        by by rewrite Hrun.
      apply to_documents_absent. simpl. rewrite fn_lookup_insert.
      apply lookup_delete_eq.
    + destruct (Hpop o' Hin) as [[v Hv] Hnone]. split; [|done].
      exists v. eapply lookup_weaken; [exact Hv|]. simpl.
      destruct (decide (properties o = properties o')) as [<-|Hne].
      * rewrite fn_lookup_insert. apply delete_subseteq.
      * by rewrite fn_lookup_insert_ne.
Qed.

(** A loop that comes to its end has found, in every record, a text that
    passes as the content of a document. *)
Lemma to_documents_inr_valid key objs docs w found w' :
  to_documents py key objs docs w = (inr found, w') →
  ∀ o, o ∈ objs →
    ∃ text s, objects w (properties o) !! key = Some text ∧
              validate_page_content py text = inr s.
Proof.
  revert docs w. induction objs as [|o objs IH]; intros docs w Hrun.
  { by intros o Hin%elem_of_nil. }
  rewrite to_documents_cons in Hrun.
  destruct (objects w (properties o) !! key) as [text|] eqn:Htext; [|discriminate].
  cbv zeta in Hrun.
  destruct (validate_page_content py text) as [e|s] eqn:Hs; [discriminate|].
  intros o' [->|Hin]%elem_of_cons; [by exists text, s|].
  destruct (IH _ _ Hrun o' Hin) as (text' & s' & Ht & Hs').
  exists text', s'. split; [|done].
  eapply lookup_weaken; [exact Ht|]. simpl.
  destruct (decide (properties o = properties o')) as [<-|Hne].
  - rewrite fn_lookup_insert. apply delete_subseteq.
  - by rewrite fn_lookup_insert_ne.
Qed.

(** The loop fails in two ways only: a record has no text to pop, or the
    text popped does not pass as the content of a document. *)
Lemma to_documents_inl key objs docs w e w' :
  to_documents py key objs docs w = (inl e, w') →
  e = KeyError key ∨
  ∃ o text, o ∈ objs ∧ objects w (properties o) !! key = Some text ∧
            validate_page_content py text = inl e.
Proof.
  revert docs w. induction objs as [|o objs IH]; intros docs w Hrun; [discriminate|].
  rewrite to_documents_cons in Hrun.
  destruct (objects w (properties o) !! key) as [text|] eqn:Htext;
    [|left; by injection Hrun as <- _].
  cbv zeta in Hrun.
  destruct (validate_page_content py text) as [e'|s] eqn:Hs.
  { injection Hrun as <- _. right. exists o, text. split; [left|done]. }
  destruct (IH _ _ Hrun) as [->|(o' & text' & Hin & Ht & He)]; [by left|].
  right. exists o', text'. split; [by right|]. split; [|done].
  eapply lookup_weaken; [exact Ht|]. simpl.
  destruct (decide (properties o = properties o')) as [<-|Hne].
  - rewrite fn_lookup_insert. apply delete_subseteq.
  - by rewrite fn_lookup_insert_ne.
Qed.

(** A record without the text stops the loop; among strings the error is
    the [KeyError] of the pop. *)
Lemma to_documents_missing key objs docs w o :
  o ∈ objs → objects w (properties o) !! key = None →
  (∃ e, (to_documents py key objs docs w).1 = inl e) ∧
  ((∀ o' text, o' ∈ objs → objects w (properties o') !! key = Some text →
      ∃ s, text = VStr s) →
   (to_documents py key objs docs w).1 = inl (KeyError key)).
Proof.
  intros Hin Hnone.
  destruct (to_documents py key objs docs w) as [[e|found] w'] eqn:Hrun; simpl.
  - split; [by exists e|]. intros Hstr.
    destruct (to_documents_inl _ _ _ _ _ _ Hrun)
      as [->|(o' & text & Hin' & Ht & He)]; [done|].
    destruct (Hstr o' text Hin' Ht) as [s ->]. discriminate.
  - apply to_documents_inr in Hrun as [_ Hpop].
    destruct (Hpop o Hin) as [[v Hv] _]. rewrite Hnone in Hv. discriminate.
Qed.

(** *** The search as a whole *)

Lemma search_unfold self query kw w :
  _get_relevant_documents py self query kw w =
  match hybrid_request py self query kw w with
  | (inl e, w1) => (inl e, w1)
  | (inr objs, w1) => to_documents py (text_key self) objs [] w1
  end.
Proof. reflexivity. Qed.

Lemma search_calls self query kw w :
  calls (_get_relevant_documents py self query kw w).2 =
  calls (hybrid_request py self query kw w).2.
Proof.
  rewrite search_unfold.
  destruct (hybrid_request py self query kw w) as [[e|objs] w1]; [done|].
  apply to_documents_frame.
Qed.

Lemma search_issued self query kw w :
  issued (_get_relevant_documents py self query kw) w =
  issued (hybrid_request py self query kw) w.
Proof. unfold issued. by rewrite search_calls. Qed.

(** A hybrid query in the log of a search is the one built from the
    retriever's fields, the embedding and the extra options. *)
Lemma search_issued_hybrid self query kw w c kwargs :
  QueryHybrid c kwargs ∈ issued (_get_relevant_documents py self query kw) w →
  ∃ b1 vector b2,
    collections_get (client self) (index_name self) (backend w) = (inr c, b1) ∧
    embed_query (embedding self) query b1 = (inr vector, b2) ∧
    keyword_arguments py (hybrid_arguments self query vector) (default ∅ kw)
      = inr kwargs.
Proof.
  rewrite search_issued.
  destruct (hybrid_request_calls self query kw w) as (l & Hl & Hcases).
  rewrite (issued_app _ _ _ Hl).
  destruct Hcases as [->|[->|(c' & b1 & vector & b2 & kwargs' & Hg & He & Hk & ->)]].
  - by intros [=]%list_elem_of_singleton.
  - intros [[=]|[=]%list_elem_of_singleton]%elem_of_cons.
  - intros [[=]|[[=]|[= -> ->]%list_elem_of_singleton]%elem_of_cons]%elem_of_cons.
    by exists b1, vector, b2.
Qed.

(** ** The properties of [_get_relevant_documents] *)

(** C1, as amended.  When the request brings back N records whose property
    dictionaries are pairwise distinct objects and each hold a string under
    the text field, the search returns exactly N documents in the order of
    the records; the text of a document is the string under the text field
    of its record, and its metadata is the record's dictionary, which by
    then holds the other properties unchanged and no text field. *)
Theorem search_maps_distinct_records self query kw w objs w1 :
  hybrid_request py self query kw w = (inr objs, w1) →
  (∀ o, o ∈ objs →
     ∃ s, objects w1 (properties o) !! text_key self = Some (VStr s)) →
  NoDup (properties <$> objs) →
  ∃ docs w',
    _get_relevant_documents py self query kw w = (inr docs, w') ∧
    length docs = length objs ∧
    ∀ i o, objs !! i = Some o →
      ∃ s d,
        objects w1 (properties o) !! text_key self = Some (VStr s) ∧
        docs !! i = Some d ∧
        page_content d = s ∧
        metadata d = properties o ∧
        objects w' (metadata d) = delete (text_key self) (objects w1 (properties o)).
Proof.
  intros Hreq Hall Hnd.
  destruct (to_documents_distinct (text_key self) objs [] w1 Hnd)
    as (docs & w' & Hrun & Hlen & Hdocs).
  { intros o Hin. destruct (Hall o Hin) as [s Hs]. by exists (VStr s), s. }
  exists docs, w'. rewrite search_unfold, Hreq. split; [done|]. split; [done|].
  intros i o Hi. destruct (Hdocs i o Hi) as (text & s & Ht & Hs & Hd & Hm).
  destruct (Hall o) as [s' Hs']; [by eapply list_elem_of_lookup_2|].
  rewrite Hs' in Ht. injection Ht as <-. injection Hs as <-.
  by exists s', {| page_content := s'; metadata := properties o |}.
Qed.

(** C2.  When the embedding provider raises, the search raises that very
    error and issues no operation on the backing store: all it has done by
    then is to ask the client for the handle of the collection and to call
    the embedding provider. *)
Theorem embedding_error_stops_search self query kw w c b1 e b2 :
  collections_get (client self) (index_name self) (backend w) = (inr c, b1) →
  embed_query (embedding self) query b1 = (inl e, b2) →
  _get_relevant_documents py self query kw w =
    (inl e, World b2 (objects w)
              (calls w ++ [CollectionsGet (index_name self); EmbedQuery query])) ∧
  filter is_store_call (issued (_get_relevant_documents py self query kw) w) = [].
Proof.
  intros Hg He.
  assert (_get_relevant_documents py self query kw w =
    (inl e, World b2 (objects w)
              (calls w ++ [CollectionsGet (index_name self); EmbedQuery query]))) as Hrun.
  { by rewrite search_unfold, hybrid_request_unfold, Hg, He. }
  split; [done|].
  rewrite (issued_app _ w [CollectionsGet (index_name self); EmbedQuery query]);
    [done|by rewrite Hrun].
Qed.

(** C3.  Every hybrid query that a search issues carries the [alpha] and the
    [k] of the retriever, as they are. *)
Theorem request_carries_alpha_and_k self query kw w c kwargs :
  QueryHybrid c kwargs ∈ issued (_get_relevant_documents py self query kw) w →
  kwargs !! "alpha" = Some (VFloat (alpha self)) ∧
  kwargs !! "limit" = Some (VInt (k self)).
Proof.
  intros (b1 & vector & b2 & _ & _ & [-> _]%keyword_arguments_inr)%search_issued_hybrid.
  destruct (hybrid_arguments_lookup self query vector) as (_ & Hl & Ha & _).
  split; by apply lookup_union_Some_l.
Qed.

(** C6.  When the hybrid query raises, the search raises that very error;
    the query was issued once, and no list of documents comes back. *)
Theorem query_error_propagates self query kw w c b1 vector b2 kwargs e b3 h :
  collections_get (client self) (index_name self) (backend w) = (inr c, b1) →
  embed_query (embedding self) query b1 = (inr vector, b2) →
  keyword_arguments py (hybrid_arguments self query vector) (default ∅ kw) = inr kwargs →
  query_hybrid (client self) c kwargs b2 (objects w) = (inl e, b3, h) →
  _get_relevant_documents py self query kw w =
    (inl e, World b3 h
              (calls w ++ [CollectionsGet (index_name self); EmbedQuery query;
                           QueryHybrid c kwargs])) ∧
  filter is_hybrid_call (issued (_get_relevant_documents py self query kw) w) =
    [QueryHybrid c kwargs].
Proof.
  intros Hg He Hk Hq.
  assert (_get_relevant_documents py self query kw w =
    (inl e, World b3 h
              (calls w ++ [CollectionsGet (index_name self); EmbedQuery query;
                           QueryHybrid c kwargs]))) as Hrun.
  { by rewrite search_unfold, hybrid_request_unfold, Hg, He, Hk, Hq. }
  split; [done|].
  rewrite (issued_app _ w [CollectionsGet (index_name self); EmbedQuery query;
                           QueryHybrid c kwargs]); [done|by rewrite Hrun].
Qed.

(** C8.  Every hybrid query that a search issues carries each entry of the
    extra options next to the query text, the vector, the blend weight and
    the result limit; without extra options it carries those four only. *)
Theorem extra_options_are_merged self query kw w c kwargs :
  QueryHybrid c kwargs ∈ issued (_get_relevant_documents py self query kw) w →
  ∃ b1 vector b2,
    collections_get (client self) (index_name self) (backend w) = (inr c, b1) ∧
    embed_query (embedding self) query b1 = (inr vector, b2) ∧
    (∀ key v, default ∅ kw !! key = Some v → kwargs !! key = Some v) ∧
    kwargs !! "query" = Some (VStr query) ∧
    kwargs !! "vector" = Some vector ∧
    kwargs !! "alpha" = Some (VFloat (alpha self)) ∧
    kwargs !! "limit" = Some (VInt (k self)) ∧
    kwargs = list_to_map (hybrid_arguments self query vector) ∪ default ∅ kw ∧
    (kw = None → kwargs = list_to_map (hybrid_arguments self query vector)).
Proof.
  intros (b1 & vector & b2 & Hg & He & Hk)%search_issued_hybrid.
  exists b1, vector, b2. split; [done|]. split; [done|].
  split; [intros key v; by apply (keyword_arguments_extra _ _ _ _ _ Hk)|].
  apply keyword_arguments_inr in Hk as [-> _].
  destruct (hybrid_arguments_lookup self query vector) as (Hq & Hl & Ha & Hv).
  repeat (split; [by apply lookup_union_Some_l|]).
  split; [done|]. intros ->. simpl. apply map_union_empty.
Qed.

(** C9.  After a search that returns, no record that came back from the
    backing store has the text field in its property dictionary any more,
    though each had it when it came back: the field is popped out of the
    store's own dictionary, and that same dictionary is the metadata of the
    document. *)
Theorem search_pops_text_in_place self query kw w objs w1 docs w' :
  hybrid_request py self query kw w = (inr objs, w1) →
  _get_relevant_documents py self query kw w = (inr docs, w') →
  metadata <$> docs = properties <$> objs ∧
  ∀ o, o ∈ objs →
    is_Some (objects w1 (properties o) !! text_key self) ∧
    objects w' (properties o) !! text_key self = None.
Proof.
  intros Hreq. rewrite search_unfold, Hreq.
  intros [(new & -> & Hmeta) Hpop]%to_documents_inr. by split.
Qed.

(** C10.  When one of the records that came back has no text field, the
    search raises an error and returns no documents.  When the text of the
    other records is a string the error is the [KeyError] of the pop; a
    record before it whose text does not pass as the content of a document
    stops the search earlier, with the error of that validation. *)
Theorem missing_text_field_raises self query kw w objs w1 o :
  hybrid_request py self query kw w = (inr objs, w1) →
  o ∈ objs →
  objects w1 (properties o) !! text_key self = None →
  (∃ e, (_get_relevant_documents py self query kw w).1 = inl e) ∧
  ((∀ o' text, o' ∈ objs →
      objects w1 (properties o') !! text_key self = Some text → ∃ s, text = VStr s) →
   (_get_relevant_documents py self query kw w).1 = inl (KeyError (text_key self))).
Proof.
  intros Hreq Hin Hnone. rewrite search_unfold, Hreq.
  by eapply to_documents_missing.
Qed.

(** ** The properties of [validate_client] *)

(** What the validator does once the client has passed the type test and
    the two names are among the values. *)
Lemma validate_client_unfold isinstance values w c cl index key :
  values !! "client" = Some c → isinstance c = Some cl →
  values !! "index_name" = Some index → values !! "text_key" = Some key →
  validate_client (Some isinstance) values w =
  match collections_exists cl index (backend w) with
  | (inl e, b1) => (inl e, World b1 (objects w) (calls w ++ [CollectionsExists index]))
  | (inr true, b1) =>
      (inr values, World b1 (objects w) (calls w ++ [CollectionsExists index]))
  | (inr false, b1) =>
      let log := [CollectionsExists index; CollectionsCreateFromDict (schema index key)] in
      match collections_create_from_dict cl (schema index key) b1 with
      | (inl e, b2) => (inl e, World b2 (objects w) (calls w ++ log))
      | (inr _, b2) => (inr values, World b2 (objects w) (calls w ++ log))
      end
  end.
Proof.
  intros Hc Hcl Hi Hk.
  unfold validate_client, getitem, mbind, M_bind, mret, M_ret,
    call_exists, call_create_from_dict.
  rewrite Hc. simpl. rewrite Hcl, Hi. simpl. rewrite Hk. simpl.
  destruct (collections_exists _ _ _) as [[e|[]] b1]; simpl; [done|done|].
  destruct (collections_create_from_dict _ _ _) as [[e|[]] b2]; simpl;
    by rewrite <- app_assoc.
Qed.

(** C4.  When the collection named in the values does not exist, the
    validator creates it: it asks the client to create a collection from a
    schema whose class is the [index_name], with one property, named by
    [text_key] and of data type text.  Construction goes on when the
    creation succeeds and raises the client's error when it fails. *)
Theorem construction_creates_missing_collection
    isinstance values w c cl index key b1 :
  values !! "client" = Some c → isinstance c = Some cl →
  values !! "index_name" = Some index → values !! "text_key" = Some key →
  collections_exists cl index (backend w) = (inr false, b1) →
  issued (validate_client (Some isinstance) values) w =
    [ CollectionsExists index;
      CollectionsCreateFromDict
        {| class := index;
           schema_properties := [ {| name := key; dataType := ["text"] |} ] |} ] ∧
  ∃ r b2,
    collections_create_from_dict cl (schema index key) b1 = (r, b2) ∧
    validate_client (Some isinstance) values w =
      (match r with inl e => inl e | inr _ => inr values end,
       World b2 (objects w)
         (calls w ++ [ CollectionsExists index;
                       CollectionsCreateFromDict (schema index key) ])).
Proof.
  intros Hc Hcl Hi Hk He.
  pose proof (validate_client_unfold isinstance values w c cl index key Hc Hcl Hi Hk)
    as Hrun.
  rewrite He in Hrun. cbv zeta in Hrun.
  destruct (collections_create_from_dict cl (schema index key) b1) as [r b2] eqn:Hcr.
  assert (validate_client (Some isinstance) values w =
      (match r with inl e => inl e | inr _ => inr values end,
       World b2 (objects w)
         (calls w ++ [ CollectionsExists index;
                       CollectionsCreateFromDict (schema index key) ]))) as Hrun'.
  { rewrite Hrun. by destruct r. }
  split; [|by exists r, b2].
  apply issued_app. by rewrite Hrun'.
Qed.

(** C5.  When the collection named in the values exists already, the
    validator issues no creation: its only call is the existence test, the
    backend is as that test left it, and the values go through. *)
Theorem construction_keeps_existing_collection
    isinstance values w c cl index key b1 :
  values !! "client" = Some c → isinstance c = Some cl →
  values !! "index_name" = Some index → values !! "text_key" = Some key →
  collections_exists cl index (backend w) = (inr true, b1) →
  validate_client (Some isinstance) values w =
    (inr values, World b1 (objects w) (calls w ++ [CollectionsExists index])) ∧
  filter is_create_call (issued (validate_client (Some isinstance) values) w) = [].
Proof.
  intros Hc Hcl Hi Hk He.
  pose proof (validate_client_unfold isinstance values w c cl index key Hc Hcl Hi Hk)
    as Hrun.
  rewrite He in Hrun. split; [done|].
  rewrite (issued_app _ w [CollectionsExists index]); [done|by rewrite Hrun].
Qed.

(** C7.  Construction raises at once on a wrong configuration: the
    validator raises an import error when the weaviate package is missing
    and, when it is there, a value error when the client given is not an
    instance of its client class.  No call is made, and construction ends in
    the exception that comes of the validator's error: no retriever comes
    out. *)
Theorem misconfiguration_raises_at_construction weaviate populate values w c :
  weaviate = None ∨
    (∃ isinstance,
       weaviate = Some isinstance ∧ values !! "client" = Some c ∧ isinstance c = None) →
  ∃ e,
    validate_client weaviate values w = (inl e, w) ∧
    e = match weaviate with
        | None =>
            ImportError
              ("Could not import weaviate python package. " +:+
               "Please install it with `pip install weaviate-client`.")
        | Some _ =>
            ValueError
              ("client should be an instance of weaviate.Client, got " +:+ type_repr c)
        end ∧
    construct py weaviate populate values w = (inl (validator_error py e), w) ∧
    issued (construct py weaviate populate values) w = [].
Proof.
  intros H.
  assert (∃ e, validate_client weaviate values w = (inl e, w) ∧
    e = match weaviate with
        | None =>
            ImportError
              ("Could not import weaviate python package. " +:+
               "Please install it with `pip install weaviate-client`.")
        | Some _ =>
            ValueError
              ("client should be an instance of weaviate.Client, got " +:+ type_repr c)
        end) as (e & Hrun & He).
  { destruct H as [->|(isinstance & -> & Hc & Hno)]; eexists; split; try done.
    unfold validate_client, getitem, mbind, M_bind, mret, M_ret.
    rewrite Hc. simpl. by rewrite Hno. }
  exists e. split; [done|]. split; [done|].
  assert (construct py weaviate populate values w = (inl (validator_error py e), w))
    as Hc by (unfold construct; by rewrite Hrun).
  split; [done|]. unfold issued. rewrite Hc. simpl. apply drop_all.
Qed.

End properties.

(** ** The properties at work on the scripted collaborators *)

(** Two records with their own dictionaries give two documents, and the
    dictionaries lose their text. *)
Lemma search_maps_distinct_records_witness :
  ∃ docs w',
    _get_relevant_documents Mock.py
      (Mock.retriever (inr Mock.two_records) (inr Mock.vector)) "q" None
      (Mock.start ["Article"]) = (inr docs, w') ∧
    docs = [ {| page_content := "first"; metadata := 0%nat |};
             {| page_content := "second"; metadata := 1%nat |} ] ∧
    objects w' 0%nat = {[ "page" := VInt 1 ]} ∧
    objects w' 1%nat = {[ "source" := VStr "wiki" ]}.
Proof.
  pose (self := Mock.retriever (inr Mock.two_records) (inr Mock.vector)).
  pose (w := Mock.start ["Article"]).
  destruct (search_maps_distinct_records Mock.py self "q" None w Mock.two_records
              (hybrid_request Mock.py self "q" None w).2)
    as (docs & w' & Hrun & _ & _).
  - vm_compute. reflexivity.
  - intros o [->|[->|[]%elem_of_nil]%elem_of_cons]%elem_of_cons;
      vm_compute; eexists; reflexivity.
  - vm_compute. repeat constructor; intros H; inversion H; subst;
      match goal with H' : _ ∈ [] |- _ => inversion H' end.
  - exists docs, w'. split; [exact Hrun|].
    vm_compute in Hrun. injection Hrun as <- <-.
    repeat split; vm_compute; reflexivity.
Defined.

(** The same record handed out twice: both entries show a string under the
    text field when the answer arrives, and still the search raises at the
    second one. *)
Lemma search_fails_on_shared_record :
  ∃ w1,
    hybrid_request Mock.py (Mock.retriever (inr Mock.shared_records) (inr Mock.vector))
      "q" None (Mock.start ["Article"]) = (inr Mock.shared_records, w1) ∧
    length Mock.shared_records = 2%nat ∧
    (∀ o, o ∈ Mock.shared_records →
       objects w1 (properties o) !! "text" = Some (VStr "first")) ∧
    (_get_relevant_documents Mock.py
       (Mock.retriever (inr Mock.shared_records) (inr Mock.vector)) "q" None
       (Mock.start ["Article"])).1 = inl (KeyError "text").
Proof.
  eexists. split; [vm_compute; reflexivity|]. split; [done|].
  split; [|vm_compute; reflexivity].
  intros o [->|[->|[]%elem_of_nil]%elem_of_cons]%elem_of_cons;
    vm_compute; reflexivity.
Qed.

(** An embedding provider that cannot be reached. *)
Lemma embedding_error_stops_search_witness :
  _get_relevant_documents Mock.py
    (Mock.retriever (inr Mock.two_records) (inl Mock.unreachable)) "q" None
    (Mock.start ["Article"]) =
    (inl Mock.unreachable,
     World ["Article"] Mock.store [CollectionsGet "Article"; EmbedQuery "q"]) ∧
  filter is_store_call
    (issued (_get_relevant_documents Mock.py
               (Mock.retriever (inr Mock.two_records) (inl Mock.unreachable)) "q" None)
       (Mock.start ["Article"])) = [].
Proof.
  exact (embedding_error_stops_search Mock.py
           (Mock.retriever (inr Mock.two_records) (inl Mock.unreachable)) "q" None
           (Mock.start ["Article"]) "Article" ["Article"] Mock.unreachable ["Article"]
           eq_refl eq_refl).
Defined.

(** The query of the scripted retriever carries its [alpha] and [k]. *)
Lemma request_carries_alpha_and_k_witness :
  Mock.plain_kwargs !! "alpha" = Some (VFloat 4602678819172646912) ∧
  Mock.plain_kwargs !! "limit" = Some (VInt 4).
Proof.
  apply (request_carries_alpha_and_k Mock.py
           (Mock.retriever (inr Mock.two_records) (inr Mock.vector)) "q" None
           (Mock.start ["Article"]) "Article" Mock.plain_kwargs).
  vm_compute. do 2 apply list_elem_of_further. apply list_elem_of_here.
Defined.

(** A first construction, on a backend without collections. *)
Lemma construction_creates_missing_collection_witness :
  issued (validate_client (Some (Mock.isinstance (inr Mock.two_records))) Mock.values)
    (Mock.start []) =
    [ CollectionsExists (VStr "Article");
      CollectionsCreateFromDict
        {| class := VStr "Article";
           schema_properties := [ {| name := VStr "text"; dataType := ["text"] |} ] |} ] ∧
  ∃ r b2,
    Mock.collections_create_from_dict (schema (VStr "Article") (VStr "text")) [] = (r, b2) ∧
    validate_client (Some (Mock.isinstance (inr Mock.two_records))) Mock.values
      (Mock.start []) =
      (match r with inl e => inl e | inr _ => inr Mock.values end,
       World b2 Mock.store
         [ CollectionsExists (VStr "Article");
           CollectionsCreateFromDict (schema (VStr "Article") (VStr "text")) ]).
Proof.
  exact (construction_creates_missing_collection
           (Mock.isinstance (inr Mock.two_records)) Mock.values (Mock.start [])
           (VObject "weaviate.client.WeaviateClient") (Mock.client (inr Mock.two_records))
           (VStr "Article") (VStr "text") []
           eq_refl eq_refl eq_refl eq_refl eq_refl).
Defined.

(** A second construction, on a backend that has the collection. *)
Lemma construction_keeps_existing_collection_witness :
  validate_client (Some (Mock.isinstance (inr Mock.two_records))) Mock.values
    (Mock.start ["Article"]) =
    (inr Mock.values, World ["Article"] Mock.store [CollectionsExists (VStr "Article")]) ∧
  filter is_create_call
    (issued (validate_client (Some (Mock.isinstance (inr Mock.two_records))) Mock.values)
       (Mock.start ["Article"])) = [].
Proof.
  exact (construction_keeps_existing_collection
           (Mock.isinstance (inr Mock.two_records)) Mock.values (Mock.start ["Article"])
           (VObject "weaviate.client.WeaviateClient") (Mock.client (inr Mock.two_records))
           (VStr "Article") (VStr "text") ["Article"]
           eq_refl eq_refl eq_refl eq_refl eq_refl).
Defined.

(** A backing store whose query fails. *)
Lemma query_error_propagates_witness :
  _get_relevant_documents Mock.py
    (Mock.retriever (inl Mock.query_failed) (inr Mock.vector)) "q" None
    (Mock.start ["Article"]) =
    (inl Mock.query_failed,
     World ["Article"] Mock.store
       [CollectionsGet "Article"; EmbedQuery "q"; QueryHybrid "Article" Mock.plain_kwargs]) ∧
  filter is_hybrid_call
    (issued (_get_relevant_documents Mock.py
               (Mock.retriever (inl Mock.query_failed) (inr Mock.vector)) "q" None)
       (Mock.start ["Article"])) = [QueryHybrid "Article" Mock.plain_kwargs].
Proof.
  apply (query_error_propagates Mock.py
           (Mock.retriever (inl Mock.query_failed) (inr Mock.vector)) "q" None
           (Mock.start ["Article"]) "Article" ["Article"] Mock.vector ["Article"]
           Mock.plain_kwargs Mock.query_failed ["Article"] Mock.store);
    vm_compute; reflexivity.
Defined.

(** Without the package, and with the package but no client. *)
Lemma misconfiguration_raises_at_construction_witness :
  (∃ e,
     validate_client None Mock.values (Mock.start []) = (inl e, Mock.start []) ∧
     e = ImportError
           ("Could not import weaviate python package. " +:+
            "Please install it with `pip install weaviate-client`.") ∧
     construct Mock.py None Mock.populate Mock.values (Mock.start []) =
       (inl (validator_error Mock.py e), Mock.start []) ∧
     issued (construct Mock.py None Mock.populate Mock.values) (Mock.start []) = []) ∧
  (∃ e,
     validate_client (Some (Mock.isinstance (inr Mock.two_records)))
       (<["client" := VNone]> Mock.values) (Mock.start []) = (inl e, Mock.start []) ∧
     e = ValueError
           ("client should be an instance of weaviate.Client, got " +:+ type_repr VNone) ∧
     construct Mock.py (Some (Mock.isinstance (inr Mock.two_records))) Mock.populate
       (<["client" := VNone]> Mock.values) (Mock.start []) =
       (inl (validator_error Mock.py e), Mock.start []) ∧
     issued (construct Mock.py (Some (Mock.isinstance (inr Mock.two_records)))
               Mock.populate (<["client" := VNone]> Mock.values)) (Mock.start []) = []).
Proof.
  split.
  - apply (misconfiguration_raises_at_construction Mock.py None Mock.populate
             Mock.values (Mock.start []) VNone).
    by left.
  - apply (misconfiguration_raises_at_construction Mock.py
             (Some (Mock.isinstance (inr Mock.two_records))) Mock.populate
             (<["client" := VNone]> Mock.values) (Mock.start []) VNone).
    right. exists (Mock.isinstance (inr Mock.two_records)).
    split; [reflexivity|]. split; vm_compute; reflexivity.
Defined.

(** A search with an extra option. *)
Lemma extra_options_are_merged_witness :
  Mock.merged_kwargs !! "fusion_type" = Some (VStr "RELATIVE_SCORE") ∧
  Mock.merged_kwargs !! "query" = Some (VStr "q") ∧
  Mock.merged_kwargs !! "vector" = Some Mock.vector ∧
  Mock.merged_kwargs !! "alpha" = Some (VFloat 4602678819172646912) ∧
  Mock.merged_kwargs !! "limit" = Some (VInt 4).
Proof.
  destruct (extra_options_are_merged Mock.py
              (Mock.retriever (inr Mock.two_records) (inr Mock.vector)) "q"
              (Some Mock.options) (Mock.start ["Article"]) "Article" Mock.merged_kwargs)
    as (b1 & vector & b2 & _ & He & Hx & Hq & Hv & Ha & Hl & _).
  - vm_compute. do 2 apply list_elem_of_further. apply list_elem_of_here.
  - injection He as <- _.
    split; [apply Hx; vm_compute; reflexivity|]. by repeat split.
Defined.

(** After the search, the two dictionaries of the store have no text. *)
Lemma search_pops_text_in_place_witness :
  metadata <$> [ {| page_content := "first"; metadata := 0%nat |};
                 {| page_content := "second"; metadata := 1%nat |} ]
    = properties <$> Mock.two_records ∧
  ∀ o, o ∈ Mock.two_records →
    is_Some (Mock.store (properties o) !! "text") ∧
    objects (_get_relevant_documents Mock.py
               (Mock.retriever (inr Mock.two_records) (inr Mock.vector)) "q" None
               (Mock.start ["Article"])).2 (properties o) !! "text" = None.
Proof.
  apply (search_pops_text_in_place Mock.py
           (Mock.retriever (inr Mock.two_records) (inr Mock.vector)) "q" None
           (Mock.start ["Article"]) Mock.two_records
           (World ["Article"] Mock.store
              [CollectionsGet "Article"; EmbedQuery "q";
               QueryHybrid "Article" Mock.plain_kwargs]));
    vm_compute; reflexivity.
Defined.

(** A record without text among the answers. *)
Lemma missing_text_field_raises_witness :
  (_get_relevant_documents Mock.py
     (Mock.retriever (inr Mock.textless_records) (inr Mock.vector)) "q" None
     (Mock.start ["Article"])).1 = inl (KeyError "text").
Proof.
  apply (missing_text_field_raises Mock.py
           (Mock.retriever (inr Mock.textless_records) (inr Mock.vector)) "q" None
           (Mock.start ["Article"]) Mock.textless_records
           (World ["Article"] Mock.store
              [CollectionsGet "Article"; EmbedQuery "q";
               QueryHybrid "Article" Mock.plain_kwargs])
           {| properties := 2%nat |}).
  - vm_compute. reflexivity.
  - apply list_elem_of_further, list_elem_of_here.
  - vm_compute. reflexivity.
  - intros o' text [->|[->|[]%elem_of_nil]%elem_of_cons]%elem_of_cons;
      vm_compute; intros [= <-]; by eexists.
Defined.

(** ** Further properties of the validator and of the search *)

Section further_properties.
Context {B Collection : Type} (py : Runtime).
Implicit Types (w : @world B Collection) (self : @Retriever B Collection).
Implicit Types (objs : list obj) (docs : list Document).

Lemma issued_nil {A} (m : M A) w : (m w).2 = w → issued m w = [].
Proof. intros E. unfold issued. rewrite E. apply drop_all. Qed.

(** *** The validator *)

(** X1.  The validator reads ["client"], ["index_name"] and ["text_key"] out
    of the values, in that order and before it calls the client: the first of
    them that is missing makes it raise [KeyError] for that name, and nothing
    has been called by then. *)
Theorem missing_value_raises_key_error isinstance values w key :
  (values !! "client" = None ∧ key = "client") ∨
  (∃ c cl, values !! "client" = Some c ∧ isinstance c = Some cl ∧
     ((values !! "index_name" = None ∧ key = "index_name") ∨
      (is_Some (values !! "index_name") ∧
       values !! "text_key" = None ∧ key = "text_key"))) →
  validate_client (Some isinstance) values w = (inl (KeyError key), w) ∧
  issued (validate_client (Some isinstance) values) w = [].
Proof.
  intros H.
  assert (validate_client (Some isinstance) values w = (inl (KeyError key), w)) as Hrun.
  { unfold validate_client, getitem, mbind, M_bind, mret, M_ret.
    destruct H as [[Hc ->]|(c & cl & Hc & Hcl & [[Hi ->]|([index Hi] & Hk & ->)])];
      rewrite Hc; simpl; [done|rewrite Hcl, Hi; done|].
    rewrite Hcl, Hi. simpl. by rewrite Hk. }
  split; [done|]. apply issued_nil. by rewrite Hrun.
Qed.

(** X2.  When the existence test itself raises, the validator raises that
    error; the test is the only call made, so nothing is created. *)
Theorem existence_error_propagates isinstance values w c cl index key e b1 :
  values !! "client" = Some c → isinstance c = Some cl →
  values !! "index_name" = Some index → values !! "text_key" = Some key →
  collections_exists cl index (backend w) = (inl e, b1) →
  validate_client (Some isinstance) values w =
    (inl e, World b1 (objects w) (calls w ++ [CollectionsExists index])).
Proof.
  intros Hc Hcl Hi Hk He.
  by rewrite (validate_client_unfold isinstance values w c cl index key), He.
Qed.

(** X3.  A validator that returns gives back the values it was given, and it
    can only return when the package is there, the three values are present,
    the client has passed the type test and the existence test has
    answered. *)
Theorem validator_returns_its_values weaviate values w vs w' :
  validate_client weaviate values w = (inr vs, w') →
  vs = values ∧
  ∃ isinstance c cl index key present b1,
    weaviate = Some isinstance ∧
    values !! "client" = Some c ∧ isinstance c = Some cl ∧
    values !! "index_name" = Some index ∧ values !! "text_key" = Some key ∧
    collections_exists cl index (backend w) = (inr present, b1).
Proof.
  destruct weaviate as [isinstance|]; [|discriminate].
  destruct (values !! "client") as [c|] eqn:Hc;
    [|unfold validate_client, getitem, mbind, M_bind; rewrite Hc; discriminate].
  destruct (isinstance c) as [cl|] eqn:Hcl;
    [|unfold validate_client, getitem, mbind, M_bind, mret, M_ret;
      rewrite Hc; simpl; rewrite Hcl; discriminate].
  destruct (values !! "index_name") as [index|] eqn:Hi;
    [|unfold validate_client, getitem, mbind, M_bind, mret, M_ret;
      rewrite Hc; simpl; rewrite Hcl, Hi; discriminate].
  destruct (values !! "text_key") as [key|] eqn:Hk;
    [|unfold validate_client, getitem, mbind, M_bind, mret, M_ret;
      rewrite Hc; simpl; rewrite Hcl, Hi; simpl; rewrite Hk; discriminate].
  rewrite (validate_client_unfold isinstance values w c cl index key) by done.
  destruct (collections_exists cl index (backend w)) as [[e|present] b1] eqn:He;
    [discriminate|].
  intros Hrun.
  assert (vs = values) as ->.
  { destruct present; [by injection Hrun as <- _|]. cbv zeta in Hrun.
    destruct (collections_create_from_dict _ _ _) as [[e|[]] b2];
      [discriminate|by injection Hrun as <- _]. }
  split; [done|]. by exists isinstance, c, cl, index, key, present, b1.
Qed.

(** X4.  Whatever the values and the client are, the validator leaves the
    dictionaries of the heap alone and calls the client at most twice: the
    existence test for the [index_name], and after it at most one creation,
    of the schema built from [index_name] and [text_key]. *)
Theorem validator_calls weaviate values w :
  objects (validate_client weaviate values w).2 = objects w ∧
  (issued (validate_client weaviate values) w = [] ∨
   ∃ index key,
     values !! "index_name" = Some index ∧ values !! "text_key" = Some key ∧
     (issued (validate_client weaviate values) w = [CollectionsExists index] ∨
      issued (validate_client weaviate values) w =
        [CollectionsExists index; CollectionsCreateFromDict (schema index key)])).
Proof.
  assert (∀ e, validate_client weaviate values w = (inl e, w) →
    objects (validate_client weaviate values w).2 = objects w ∧
    (issued (validate_client weaviate values) w = [] ∨
     ∃ index key,
       values !! "index_name" = Some index ∧ values !! "text_key" = Some key ∧
       (issued (validate_client weaviate values) w = [CollectionsExists index] ∨
        issued (validate_client weaviate values) w =
          [CollectionsExists index; CollectionsCreateFromDict (schema index key)])))
    as Hquiet.
  { intros e Hrun. split; [by rewrite Hrun|]. left. apply issued_nil. by rewrite Hrun. }
  destruct weaviate as [isinstance|]; [|by eapply Hquiet].
  destruct (values !! "client") as [c|] eqn:Hc;
    [|eapply Hquiet; unfold validate_client, getitem, mbind, M_bind; by rewrite Hc].
  destruct (isinstance c) as [cl|] eqn:Hcl;
    [|eapply Hquiet; unfold validate_client, getitem, mbind, M_bind, mret, M_ret;
      rewrite Hc; simpl; by rewrite Hcl].
  destruct (values !! "index_name") as [index|] eqn:Hi;
    [|eapply Hquiet; unfold validate_client, getitem, mbind, M_bind, mret, M_ret;
      rewrite Hc; simpl; by rewrite Hcl, Hi].
  destruct (values !! "text_key") as [key|] eqn:Hk;
    [|eapply Hquiet; unfold validate_client, getitem, mbind, M_bind, mret, M_ret;
      rewrite Hc; simpl; rewrite Hcl, Hi; simpl; by rewrite Hk].
  pose proof (validate_client_unfold isinstance values w c cl index key Hc Hcl Hi Hk)
    as Hrun.
  destruct (collections_exists cl index (backend w)) as [[e|[]] b1].
  - split; [by rewrite Hrun|]. right. exists index, key. split; [done|]. split; [done|].
    left. apply issued_app. by rewrite Hrun.
  - split; [by rewrite Hrun|]. right. exists index, key. split; [done|]. split; [done|].
    left. apply issued_app. by rewrite Hrun.
  - cbv zeta in Hrun.
    destruct (collections_create_from_dict cl (schema index key) b1) as [[e|[]] b2];
      (split; [by rewrite Hrun|]); right; exists index, key;
      (split; [done|]); (split; [done|]); right; apply issued_app; by rewrite Hrun.
Qed.

(** *** The search *)

(** A loop that comes to its end has met no dictionary twice. *)
Lemma to_documents_inr_NoDup key objs docs w found w' :
  to_documents py key objs docs w = (inr found, w') → NoDup (properties <$> objs).
Proof.
  revert docs w. induction objs as [|o objs IH]; intros docs w Hrun.
  { constructor. }
  rewrite to_documents_cons in Hrun.
  destruct (objects w (properties o) !! key) as [text|]; [|discriminate].
  cbv zeta in Hrun.
  destruct (validate_page_content py text) as [e|s]; [discriminate|].
  rewrite fmap_cons. apply NoDup_cons. split; [|by eapply IH].
  intros (o' & E & Hin)%list_elem_of_fmap.
  apply to_documents_inr in Hrun as [_ Hpop].
  destruct (Hpop o' Hin) as [[v Hv] _]. simpl in Hv.
  rewrite <- E, fn_lookup_insert, lookup_delete_eq in Hv. discriminate.
Qed.

Lemma repeated_keyword self query vector extra key :
  key ∈ ["query"; "limit"; "alpha"; "vector"] → is_Some (extra !! key) →
  keyword_arguments py (hybrid_arguments self query vector) extra =
    inl (TypeError
           (repeated_keyword_message py (hybrid_arguments self query vector) extra)).
Proof.
  intros Hkey [v Hv]. unfold keyword_arguments.
  replace (forallb _ (hybrid_arguments self query vector)) with false; [done|].
  symmetry. unfold hybrid_arguments. simpl.
  repeat (apply elem_of_cons in Hkey as [->|Hkey]; [rewrite Hv|]);
    [..|by apply elem_of_nil in Hkey]; simpl;
    repeat match goal with |- context [extra !! ?x] => destruct (extra !! x) end;
    done.
Qed.

(** X5.  When the lookup of the collection raises, the search raises that
    error at once: the embedding provider is not asked and no query is
    issued. *)
Theorem collection_lookup_error_stops_search self query kw w e b1 :
  collections_get (client self) (index_name self) (backend w) = (inl e, b1) →
  _get_relevant_documents py self query kw w =
    (inl e, World b1 (objects w) (calls w ++ [CollectionsGet (index_name self)])).
Proof. intros Hg. by rewrite search_unfold, hybrid_request_unfold, Hg. Qed.

(** X6.  Extra options cannot replace the query text, the limit, the blend
    weight or the vector: a mapping that has one of these four names makes
    the search raise a [TypeError] after the embedding has been computed,
    and the hybrid query is not issued. *)
Theorem repeated_keyword_raises_type_error self query extra w c b1 vector b2 key :
  collections_get (client self) (index_name self) (backend w) = (inr c, b1) →
  embed_query (embedding self) query b1 = (inr vector, b2) →
  key ∈ ["query"; "limit"; "alpha"; "vector"] → is_Some (extra !! key) →
  ∃ msg,
    _get_relevant_documents py self query (Some extra) w =
      (inl (TypeError msg),
       World b2 (objects w)
         (calls w ++ [CollectionsGet (index_name self); EmbedQuery query])).
Proof.
  intros Hg He Hkey Hs.
  exists (repeated_keyword_message py (hybrid_arguments self query vector) extra).
  rewrite search_unfold, hybrid_request_unfold, Hg, He. cbv zeta. simpl default.
  by rewrite (repeated_keyword self query vector extra key).
Qed.

(** X7.  Whatever happens, a search calls its collaborators in one order and
    at most once each: the lookup of the collection, then the embedding of
    the query text, then the hybrid query.  It never tests for or creates a
    collection, and it never repeats a query. *)
Theorem search_calls_in_order self query kw w :
  issued (_get_relevant_documents py self query kw) w =
    [CollectionsGet (index_name self)] ∨
  issued (_get_relevant_documents py self query kw) w =
    [CollectionsGet (index_name self); EmbedQuery query] ∨
  ∃ c kwargs,
    issued (_get_relevant_documents py self query kw) w =
      [CollectionsGet (index_name self); EmbedQuery query; QueryHybrid c kwargs].
Proof.
  rewrite search_issued.
  destruct (hybrid_request_calls py self query kw w) as (l & Hl & Hcases).
  rewrite (issued_app _ _ _ Hl).
  destruct Hcases as [->|[->|(c & _ & _ & _ & kwargs & _ & _ & _ & ->)]]; eauto.
Qed.

(** X8.  Once the store has answered with records whose text, where there
    is one, is a string, the search returns documents exactly when the
    property dictionaries of the records are pairwise distinct objects and
    each of them holds the text field. *)
Theorem search_returns_iff self query kw w objs w1 :
  hybrid_request py self query kw w = (inr objs, w1) →
  (∀ o text, o ∈ objs →
     objects w1 (properties o) !! text_key self = Some text → ∃ s, text = VStr s) →
  (∃ docs w', _get_relevant_documents py self query kw w = (inr docs, w')) ↔
  NoDup (properties <$> objs) ∧
  ∀ o, o ∈ objs → is_Some (objects w1 (properties o) !! text_key self).
Proof.
  intros Hreq Hstr. rewrite search_unfold, Hreq. split.
  - intros (docs & w' & Hrun). split; [by eapply to_documents_inr_NoDup|].
    intros o Hin. apply to_documents_inr in Hrun as [_ Hpop]. by apply Hpop.
  - intros [Hnd Hall].
    destruct (to_documents_distinct py (text_key self) objs [] w1 Hnd)
      as (found & w' & Hrun & _); [|by exists found, w'].
    intros o Hin. destruct (Hall o Hin) as [text Ht].
    destruct (Hstr o text Hin Ht) as [s ->]. by exists (VStr s), s.
Qed.

(** X9.  A search that returns gives one document per record and changes
    nothing but the text fields: in the dictionary of each record the text
    entry is gone and every other entry is as the store left it, the other
    dictionaries are untouched, and so are the backend and the log of the
    request. *)
Theorem search_changes_only_the_text self query kw w objs w1 docs w' :
  hybrid_request py self query kw w = (inr objs, w1) →
  _get_relevant_documents py self query kw w = (inr docs, w') →
  length docs = length objs ∧
  backend w' = backend w1 ∧ calls w' = calls w1 ∧
  ∀ l, objects w' l =
       if bool_decide (l ∈ properties <$> objs)
       then delete (text_key self) (objects w1 l)
       else objects w1 l.
Proof.
  intros Hreq. rewrite search_unfold, Hreq. intros Hrun.
  pose proof (to_documents_inr_NoDup _ _ _ _ _ _ Hrun) as Hnd.
  pose proof (to_documents_frame py (text_key self) objs [] w1) as [Hb Hc].
  pose proof (to_documents_other py (text_key self) objs [] w1) as Hother.
  destruct (to_documents_distinct py (text_key self) objs [] w1 Hnd)
    as (found & w'' & Hrun' & Hlen & Hdocs).
  { by eapply to_documents_inr_valid. }
  rewrite Hrun in Hrun', Hb, Hc, Hother. simpl in *.
  injection Hrun' as -> <-.
  split; [done|]. split; [done|]. split; [done|].
  intros l. case_bool_decide as Hl; [|by apply Hother].
  apply list_elem_of_fmap in Hl as (o & -> & Hin).
  apply list_elem_of_lookup_1 in Hin as [i Hi].
  by destruct (Hdocs i o Hi) as (text & s & _ & _ & _ & Hm).
Qed.

(** X10.  A search that fails does not undo what it has done: when the first
    record holds the text and a later one does not, the search raises an
    error, and the text is gone from the dictionary of the first record all
    the same.  When the text of the records is a string, the error is the
    [KeyError] of the pop. *)
Theorem failed_search_keeps_its_pops self query kw w o rest w1 late :
  hybrid_request py self query kw w = (inr (o :: rest), w1) →
  is_Some (objects w1 (properties o) !! text_key self) →
  late ∈ rest →
  objects w1 (properties late) !! text_key self = None →
  (∃ e, (_get_relevant_documents py self query kw w).1 = inl e) ∧
  objects (_get_relevant_documents py self query kw w).2 (properties o)
    !! text_key self = None ∧
  ((∀ o' text, o' ∈ o :: rest →
      objects w1 (properties o') !! text_key self = Some text → ∃ s, text = VStr s) →
   (_get_relevant_documents py self query kw w).1 = inl (KeyError (text_key self))).
Proof.
  intros Hreq [text Htext] Hin Hnone. rewrite search_unfold, Hreq.
  destruct (to_documents_missing py (text_key self) (o :: rest) [] w1 late)
    as [Herr Hkey]; [by right|done|].
  split; [done|]. split; [|done].
  rewrite to_documents_cons, Htext. cbv zeta.
  destruct (validate_page_content py text) as [e|s]; simpl.
  - rewrite fn_lookup_insert. apply lookup_delete_eq.
  - apply to_documents_absent. simpl. rewrite fn_lookup_insert.
    apply lookup_delete_eq.
Qed.

(** X11.  The records of one answer serve for one search only: when a search
    has returned and the store then answers a second search with the same
    records, left as the first search left them, the second search raises
    [KeyError]. *)
Theorem second_search_over_same_records_raises
    self query kw w objs w1 docs w' query' kw' w2 :
  hybrid_request py self query kw w = (inr objs, w1) →
  _get_relevant_documents py self query kw w = (inr docs, w') →
  objs ≠ [] →
  hybrid_request py self query' kw' w' = (inr objs, w2) →
  (∀ l, objects w2 l = objects w' l) →
  (_get_relevant_documents py self query' kw' w').1 = inl (KeyError (text_key self)).
Proof.
  intros Hreq. rewrite (search_unfold py self query), Hreq.
  intros [_ Hpop]%to_documents_inr Hne Hreq' Hsame.
  destruct objs as [|o objs]; [done|].
  rewrite search_unfold, Hreq', to_documents_cons.
  destruct (Hpop o) as [_ Hgone]; [left|].
  by rewrite Hsame, Hgone.
Qed.

End further_properties.

(** ** The further properties at work on the scripted collaborators *)

(** Values that lack one of the three names, on a backend that has the
    collection. *)
Lemma missing_value_raises_key_error_witness :
  validate_client (Some (Mock.isinstance (inr Mock.two_records)))
    (delete "client" Mock.values) (Mock.start ["Article"]) =
    (inl (KeyError "client"), Mock.start ["Article"]) ∧
  validate_client (Some (Mock.isinstance (inr Mock.two_records)))
    (delete "index_name" Mock.values) (Mock.start ["Article"]) =
    (inl (KeyError "index_name"), Mock.start ["Article"]) ∧
  validate_client (Some (Mock.isinstance (inr Mock.two_records)))
    (delete "text_key" Mock.values) (Mock.start ["Article"]) =
    (inl (KeyError "text_key"), Mock.start ["Article"]).
Proof.
  split; [|split].
  - apply (missing_value_raises_key_error (Mock.isinstance (inr Mock.two_records))
             (delete "client" Mock.values) (Mock.start ["Article"]) "client").
    left. split; vm_compute; reflexivity.
  - apply (missing_value_raises_key_error (Mock.isinstance (inr Mock.two_records))
             (delete "index_name" Mock.values) (Mock.start ["Article"]) "index_name").
    right. exists (VObject "weaviate.client.WeaviateClient"),
      (Mock.client (inr Mock.two_records)).
    split; [vm_compute; reflexivity|]. split; [reflexivity|].
    left. split; vm_compute; reflexivity.
  - apply (missing_value_raises_key_error (Mock.isinstance (inr Mock.two_records))
             (delete "text_key" Mock.values) (Mock.start ["Article"]) "text_key").
    right. exists (VObject "weaviate.client.WeaviateClient"),
      (Mock.client (inr Mock.two_records)).
    split; [vm_compute; reflexivity|]. split; [reflexivity|].
    right. split; [exists (VStr "Article"); vm_compute; reflexivity|].
    split; vm_compute; reflexivity.
Defined.

(** A construction over a lost connection. *)
Lemma existence_error_propagates_witness :
  validate_client (Some Faulty.isinstance) Mock.values (Mock.start []) =
    (inl Faulty.lost, World [] Mock.store [CollectionsExists (VStr "Article")]).
Proof.
  exact (existence_error_propagates Faulty.isinstance Mock.values (Mock.start [])
           (VObject "weaviate.client.WeaviateClient") Faulty.client
           (VStr "Article") (VStr "text") Faulty.lost []
           eq_refl eq_refl eq_refl eq_refl eq_refl).
Defined.

(** A construction that goes through. *)
Lemma validator_returns_its_values_witness :
  Mock.values = Mock.values ∧
  ∃ isinstance c cl index key present b1,
    Some (Mock.isinstance (inr Mock.two_records)) = Some isinstance ∧
    Mock.values !! "client" = Some c ∧ isinstance c = Some cl ∧
    Mock.values !! "index_name" = Some index ∧ Mock.values !! "text_key" = Some key ∧
    collections_exists cl index ["Article"] = (inr present, b1).
Proof.
  apply (validator_returns_its_values (Some (Mock.isinstance (inr Mock.two_records)))
           Mock.values (Mock.start ["Article"]) Mock.values
           (World ["Article"] Mock.store [CollectionsExists (VStr "Article")])).
  vm_compute. reflexivity.
Defined.

(** A search over a lost connection. *)
Lemma collection_lookup_error_stops_search_witness :
  _get_relevant_documents Mock.py Faulty.retriever "q" None (Mock.start ["Article"]) =
    (inl Faulty.lost, World ["Article"] Mock.store [CollectionsGet "Article"]).
Proof.
  exact (collection_lookup_error_stops_search Mock.py Faulty.retriever "q" None
           (Mock.start ["Article"]) Faulty.lost ["Article"] eq_refl).
Defined.

(** A search whose extra options name [alpha]. *)
Lemma repeated_keyword_raises_type_error_witness :
  ∃ msg,
    _get_relevant_documents Mock.py
      (Mock.retriever (inr Mock.two_records) (inr Mock.vector)) "q"
      (Some Faulty.repeated) (Mock.start ["Article"]) =
      (inl (TypeError msg),
       World ["Article"] Mock.store [CollectionsGet "Article"; EmbedQuery "q"]).
Proof.
  apply (repeated_keyword_raises_type_error Mock.py
           (Mock.retriever (inr Mock.two_records) (inr Mock.vector)) "q" Faulty.repeated
           (Mock.start ["Article"]) "Article" ["Article"] Mock.vector ["Article"] "alpha").
  - reflexivity.
  - reflexivity.
  - do 2 apply list_elem_of_further. apply list_elem_of_here.
  - exists (VFloat 0). vm_compute. reflexivity.
Defined.

(** Two records with their own dictionaries and their texts, which are
    strings: the search returns. *)
Lemma search_returns_iff_witness :
  ∃ docs w',
    _get_relevant_documents Mock.py (Mock.retriever (inr Mock.two_records) (inr Mock.vector))
      "q" None (Mock.start ["Article"]) = (inr docs, w').
Proof.
  apply (search_returns_iff Mock.py
           (Mock.retriever (inr Mock.two_records) (inr Mock.vector))
           "q" None (Mock.start ["Article"]) Mock.two_records
           (World ["Article"] Mock.store
              [CollectionsGet "Article"; EmbedQuery "q";
               QueryHybrid "Article" Mock.plain_kwargs])).
  - vm_compute. reflexivity.
  - intros o text [->|[->|[]%elem_of_nil]%elem_of_cons]%elem_of_cons;
      vm_compute; intros [= <-]; by eexists.
  - split.
    + apply NoDup_cons. split; [by intros [=]%list_elem_of_singleton|].
      apply NoDup_singleton.
    + intros o [->|[->|[]%elem_of_nil]%elem_of_cons]%elem_of_cons;
        vm_compute; eexists; reflexivity.
Defined.

(** What that search leaves behind. *)
Lemma search_changes_only_the_text_witness :
  length [ {| page_content := "first"; metadata := 0%nat |};
           {| page_content := "second"; metadata := 1%nat |} ]
    = length Mock.two_records ∧
  backend (_get_relevant_documents Mock.py
             (Mock.retriever (inr Mock.two_records) (inr Mock.vector)) "q" None
             (Mock.start ["Article"])).2 = ["Article"] ∧
  calls (_get_relevant_documents Mock.py
           (Mock.retriever (inr Mock.two_records) (inr Mock.vector)) "q" None
           (Mock.start ["Article"])).2 =
    [CollectionsGet "Article"; EmbedQuery "q"; QueryHybrid "Article" Mock.plain_kwargs] ∧
  ∀ l, objects (_get_relevant_documents Mock.py
                  (Mock.retriever (inr Mock.two_records) (inr Mock.vector)) "q" None
                  (Mock.start ["Article"])).2 l =
       if bool_decide (l ∈ properties <$> Mock.two_records)
       then delete "text" (Mock.store l)
       else Mock.store l.
Proof.
  apply (search_changes_only_the_text Mock.py
           (Mock.retriever (inr Mock.two_records) (inr Mock.vector)) "q" None
           (Mock.start ["Article"]) Mock.two_records
           (World ["Article"] Mock.store
              [CollectionsGet "Article"; EmbedQuery "q";
               QueryHybrid "Article" Mock.plain_kwargs]));
    vm_compute; reflexivity.
Defined.

(** A record without text after one with text. *)
Lemma failed_search_keeps_its_pops_witness :
  (_get_relevant_documents Mock.py
     (Mock.retriever (inr Mock.textless_records) (inr Mock.vector)) "q" None
     (Mock.start ["Article"])).1 = inl (KeyError "text") ∧
  objects (_get_relevant_documents Mock.py
             (Mock.retriever (inr Mock.textless_records) (inr Mock.vector)) "q" None
             (Mock.start ["Article"])).2 0%nat !! "text" = None.
Proof.
  destruct (failed_search_keeps_its_pops Mock.py
           (Mock.retriever (inr Mock.textless_records) (inr Mock.vector)) "q" None
           (Mock.start ["Article"]) {| properties := 0%nat |} [ {| properties := 2%nat |} ]
           (World ["Article"] Mock.store
              [CollectionsGet "Article"; EmbedQuery "q";
               QueryHybrid "Article" Mock.plain_kwargs])
           {| properties := 2%nat |}) as (_ & Hgone & Hkey).
  - vm_compute. reflexivity.
  - exists (VStr "first"). vm_compute. reflexivity.
  - apply list_elem_of_here.
  - vm_compute. reflexivity.
  - split; [|exact Hgone]. apply Hkey.
    intros o' text [->|[->|[]%elem_of_nil]%elem_of_cons]%elem_of_cons;
      vm_compute; intros [= <-]; by eexists.
Defined.

(** The scripted client hands out the same two records for every query. *)
Lemma second_search_over_same_records_raises_witness :
  (_get_relevant_documents Mock.py
     (Mock.retriever (inr Mock.two_records) (inr Mock.vector)) "again" None
     (_get_relevant_documents Mock.py
        (Mock.retriever (inr Mock.two_records) (inr Mock.vector)) "q" None
        (Mock.start ["Article"])).2).1 = inl (KeyError "text").
Proof.
  apply (second_search_over_same_records_raises Mock.py
           (Mock.retriever (inr Mock.two_records) (inr Mock.vector)) "q" None
           (Mock.start ["Article"]) Mock.two_records
           (World ["Article"] Mock.store
              [CollectionsGet "Article"; EmbedQuery "q";
               QueryHybrid "Article" Mock.plain_kwargs])
           [ {| page_content := "first"; metadata := 0%nat |};
             {| page_content := "second"; metadata := 1%nat |} ]
           (_get_relevant_documents Mock.py
              (Mock.retriever (inr Mock.two_records) (inr Mock.vector)) "q" None
              (Mock.start ["Article"])).2
           "again" None
           (hybrid_request Mock.py
              (Mock.retriever (inr Mock.two_records) (inr Mock.vector)) "again" None
              (_get_relevant_documents Mock.py
                 (Mock.retriever (inr Mock.two_records) (inr Mock.vector)) "q" None
                 (Mock.start ["Article"])).2).2).
  - vm_compute. reflexivity.
  - vm_compute. reflexivity.
  - discriminate.
  - vm_compute. reflexivity.
  - intros l. reflexivity.
Defined.

End WeaviateHybridSearchRetriever.
